(** * LLM council loaders: prompt assembly and resilient JSON extraction

    A shallow embedding of [src/loaders.py] of the llm-council-cfb project:
    [build_agent_prompt_text], [safe_json_load] and [parse_council_df].

    Python objects are modelled by the inductive [value]; a call that may
    raise is a computation in the error monad [result]; [try]/[except
    Exception] is [try_except].  The two library entry points the module
    calls, [json.loads] and the optional [json_repair.repair_json], are
    parameters of the development (Section [Loaders]); a reference strict
    parser, [Json.loads], instantiates them when a scenario has to be run
    on concrete text. *)

From Stdlib Require Import Strings.String Strings.Ascii Lists.List ZArith.ZArith
  NArith.NArith Arith.PeanoNat Bool.Bool micromega.Lia.
From Stdlib Require Import Numbers.DecimalString.
Import ListNotations.

Set Warnings "-register-all".

Local Open Scope string_scope.
Local Open Scope list_scope.

(** ** Python values *)

(** A Python [float] is kept as the decimal literal it was read from
    ([neg], mantissa [m], exponent [e] stand for [(-1)^neg * m * 10^e]),
    or one of the three constants [json.loads] also accepts. *)
Inductive pyfloat : Type :=
| FDec (neg : bool) (m : N) (e : Z)
| FNaN
| FInf (neg : bool).

(** The objects the loaders handle: what [json.loads] builds ([None],
    [bool], [int], [float], [str], [list], [dict] with [str] keys, in
    insertion order) and the cells of a dataframe row. *)
Inductive value : Type :=
| VNone
| VBool (b : bool)
| VInt (z : Z)
| VFloat (f : pyfloat)
| VStr (s : string)
| VList (l : list value)
| VDict (d : list (string * value)).

Definition pydict : Type := list (string * value).

(** [d.get(key)] as an option: the first binding of [key]. *)
Fixpoint dict_lookup (key : string) (d : pydict) : option value :=
  match d with
  | [] => None
  | (k, v) :: rest => if String.eqb k key then Some v else dict_lookup key rest
  end.

(** [d.get(key, default)] *)
Definition dict_get (d : pydict) (key : string) (default : value) : value :=
  match dict_lookup key d with
  | Some v => v
  | None => default
  end.

(** [bool(f)] for a float: [f != 0.0].  A decimal literal rounds to zero
    exactly when its magnitude is at most [2^-1075], half of the smallest
    subnormal double. *)
Definition float_truthy (f : pyfloat) : bool :=
  match f with
  | FDec _ m e =>
      if (0 <=? e)%Z then negb (N.eqb m 0)
      else (10 ^ (- e) <? Z.of_N m * 2 ^ 1075)%Z
  | FNaN => true
  | FInf _ => true
  end.

(** [bool(v)]: Python truth value testing. *)
Definition truthy (v : value) : bool :=
  match v with
  | VNone => false
  | VBool b => b
  | VInt z => negb (Z.eqb z 0)
  | VFloat f => float_truthy f
  | VStr s => negb (String.eqb s "")
  | VList l => match l with [] => false | _ => true end
  | VDict d => match d with [] => false | _ => true end
  end.

(** [a or b] *)
Definition py_or (a b : value) : value := if truthy a then a else b.

(** [isinstance(v, dict)] *)
Definition is_dict (v : value) : bool :=
  match v with VDict _ => true | _ => false end.

(** [v is None] *)
Definition is_none (v : value) : bool :=
  match v with VNone => true | _ => false end.

(** ** Exceptions *)

(** The exception classes that occur; all of them derive from
    [Exception], which is what [except Exception] catches. *)
Inductive exn : Type :=
| JSONDecodeError
| TypeError
| ValueError
| AttributeError
| RecursionError
| OtherException (name : string).

Inductive result (A : Type) : Type :=
| Ok (a : A)
| Raise (e : exn).
Arguments Ok {A} a.
Arguments Raise {A} e.

Definition bind {A B : Type} (c : result A) (k : A -> result B) : result B :=
  match c with
  | Ok a => k a
  | Raise e => Raise e
  end.

Declare Scope py_scope.
Delimit Scope py_scope with py.
Notation "x <- c ;; k" := (bind c (fun x => k))
  (at level 61, c at next level, right associativity) : py_scope.
Local Open Scope py_scope.

(** [try: body  except Exception: handler] *)
Definition try_except {A : Type} (body : result A) (handler : result A) : result A :=
  match body with
  | Ok a => Ok a
  | Raise _ => handler
  end.

(** [v.get(key, default)]: the attribute exists on a [dict] only; on every other
    object of the model the attribute lookup raises [AttributeError]. *)
Definition method_get (v : value) (key : string) (default : value) : result value :=
  match v with
  | VDict d => Ok (dict_get d key default)
  | _ => Raise AttributeError
  end.

(** ** Text constants *)

Definition nl : string := String (ascii_of_nat 10) EmptyString.

Definition GAME_DATA_HEADER : string := "----- GAME_DATA (TOON) -----" ++ nl.

Definition COUNCIL_INSTRUCTION : string :=
  "You are part of a council predicting the outcome of this game." ++ nl ++
  "Return ONLY a single JSON object matching the agreed schema.".

(** [build_agent_prompt_text(agent_system_prompt, game_data_text)] *)
Definition build_agent_prompt_text (agent_system_prompt game_data_text : string) : string :=
  agent_system_prompt
  ++ (nl ++ nl)
  ++ GAME_DATA_HEADER
  ++ game_data_text
  ++ (nl ++ nl)
  ++ COUNCIL_INSTRUCTION.

(** ** JSON recovery and record extraction *)

(** A row of the input frame, as [iterrows] yields it: a [Series] mapping
    column labels to cells. *)
Definition Series : Type := pydict.

(** [row.get(label, default)] *)
Definition Series_get (row : Series) (label : string) (default : value) : value :=
  dict_get row label default.

Section Loaders.

(** [json.loads]: strict parsing of any object; it returns the parsed
    structure or raises. *)
Variable json_loads : value -> result value.

(** The module-level name [repair_json]: [None] when [json_repair]
    could not be imported, the repair function otherwise. *)
Variable repair_json : option (value -> result value).

(** [safe_json_load(s)] *)
Definition safe_json_load (s : value) : result value :=
  try_except (json_loads s)
    match repair_json with
    | Some repair =>
        try_except (repaired <- repair s ;; json_loads repaired) (Ok VNone)
    | None => Ok VNone
    end.

(** The record appended for a row that yields no [dict]. *)
Definition minimal_record (model_name raw : value) : pydict :=
  [("model", model_name); ("raw", raw); ("valid_json", VBool false)].

(** The body of the [for _, row in council_raw.iterrows()] loop: the
    record appended to [records] for [row], or the exception that
    leaves the loop. *)
Definition council_record (row : Series) : result pydict :=
  let raw := Series_get row "completion_text" (VStr "") in
  let model_name := Series_get row "model" VNone in
  data <- safe_json_load raw ;;
  if is_none data || negb (is_dict data) then
    Ok (minimal_record model_name raw)
  else
    score0 <- method_get data "projected_score" (VDict []) ;;
    let projected_score := py_or score0 (VDict []) in
    winner_team_id <- method_get data "winner_team_id" VNone ;;
    winner_team_name <- method_get data "winner_team_name" VNone ;;
    score_team_1 <- method_get projected_score "1" VNone ;;
    score_team_2 <- method_get projected_score "2" VNone ;;
    confidence_winner <- method_get data "confidence_winner" VNone ;;
    confidence_score_band <- method_get data "confidence_score_band" VNone ;;
    key_factors <- method_get data "key_factors" (VList []) ;;
    risk_factors <- method_get data "risk_factors" (VList []) ;;
    Ok [("model", model_name);
        ("valid_json", VBool true);
        ("winner_team_id", winner_team_id);
        ("winner_team_name", winner_team_name);
        ("score_team_1", score_team_1);
        ("score_team_2", score_team_2);
        ("confidence_winner", confidence_winner);
        ("confidence_score_band", confidence_score_band);
        ("key_factors", key_factors);
        ("risk_factors", risk_factors)].

(** The loop itself, [records] being the list built so far. *)
Fixpoint iterrows_loop (rows : list Series) (records : list pydict)
  : result (list pydict) :=
  match rows with
  | [] => Ok records
  | row :: rest =>
      record <- council_record row ;;
      iterrows_loop rest (records ++ [record])
  end.

(** [parse_council_df(council_raw)].  The input frame is the list of its
    rows; the returned frame [pd.DataFrame(records)] is represented by
    the list [records] it is built from, one record per row. *)
Definition parse_council_df (council_raw : list Series) : result (list pydict) :=
  iterrows_loop council_raw [].

End Loaders.

(** ** A reference strict parser

    [Json.loads] follows the grammar [json.loads] accepts (RFC 8259 plus
    the constants [NaN], [Infinity] and [-Infinity]), over text held as
    UTF-8 bytes.  It is the instance of [json_loads] on which the
    scenarios are run. *)
Module Json.

Definition quote : ascii := ascii_of_nat 34.
Definition backslash : ascii := ascii_of_nat 92.

Definition is_ws (c : ascii) : bool :=
  let n := N_of_ascii c in
  (n =? 32)%N || (n =? 9)%N || (n =? 10)%N || (n =? 13)%N.

Fixpoint skip_ws (s : string) : string :=
  match s with
  | String c rest => if is_ws c then skip_ws rest else s
  | EmptyString => s
  end.

Fixpoint strip_prefix (p s : string) : option string :=
  match p, s with
  | EmptyString, _ => Some s
  | String a p', String b s' =>
      if Ascii.eqb a b then strip_prefix p' s' else None
  | String _ _, EmptyString => None
  end.

Definition digit_of (c : ascii) : option N :=
  let n := N_of_ascii c in
  if ((48 <=? n) && (n <=? 57))%N then Some (n - 48)%N else None.

Definition hex_of (c : ascii) : option N :=
  let n := N_of_ascii c in
  if ((48 <=? n) && (n <=? 57))%N then Some (n - 48)%N
  else if ((97 <=? n) && (n <=? 102))%N then Some (n - 87)%N
  else if ((65 <=? n) && (n <=? 70))%N then Some (n - 55)%N
  else None.

Definition hex4 (a b c d : ascii) : option N :=
  match hex_of a, hex_of b, hex_of c, hex_of d with
  | Some x, Some y, Some z, Some w => Some (((x * 16 + y) * 16 + z) * 16 + w)%N
  | _, _, _, _ => None
  end.

(** Digits are accumulated in base ten; [cnt] counts them. *)
Fixpoint scan_digits (s : string) (acc : N) (cnt : nat) : N * nat * string :=
  match s with
  | String c rest =>
      match digit_of c with
      | Some d => scan_digits rest (acc * 10 + d)%N (S cnt)
      | None => (acc, cnt, s)
      end
  | EmptyString => (acc, cnt, s)
  end.

(** [0|[1-9][0-9]*] *)
Definition scan_int_part (s : string) : option (N * string) :=
  match s with
  | String c rest =>
      match digit_of c with
      | Some 0%N => Some (0%N, rest)
      | Some d => let '(n, _, rest') := scan_digits rest d 0 in Some (n, rest')
      | None => None
      end
  | EmptyString => None
  end.

(** [\.[0-9]+], the digits appended to the mantissa [m]. *)
Definition scan_frac (s : string) (m : N) : option (N * nat * string) :=
  match s with
  | String c rest =>
      if Ascii.eqb c "." then
        let '(m', cnt, rest') := scan_digits rest m 0 in
        if Nat.eqb cnt 0 then None else Some (m', cnt, rest')
      else None
  | EmptyString => None
  end.

(** [[eE][-+]?[0-9]+] *)
Definition scan_exp (s : string) : option (Z * string) :=
  match s with
  | String c rest =>
      if Ascii.eqb c "e" || Ascii.eqb c "E" then
        let '(neg, rest1) :=
          match rest with
          | String sg r =>
              if Ascii.eqb sg "-" then (true, r)
              else if Ascii.eqb sg "+" then (false, r)
              else (false, rest)
          | EmptyString => (false, rest)
          end in
        let '(n, cnt, rest2) := scan_digits rest1 0 0 in
        if Nat.eqb cnt 0 then None
        else Some (if neg then (- Z.of_N n)%Z else Z.of_N n, rest2)
      else None
  | EmptyString => None
  end.

(** A number: an [int] when it has neither fraction nor exponent, a
    [float] otherwise. *)
Definition match_number (s : string) : option (value * string) :=
  let '(neg, s1) :=
    match s with
    | String c r => if Ascii.eqb c "-" then (true, r) else (false, s)
    | EmptyString => (false, s)
    end in
  match scan_int_part s1 with
  | None => None
  | Some (n, s2) =>
      let '(m, fcnt, s3, has_frac) :=
        match scan_frac s2 n with
        | Some (m, cnt, r) => (m, cnt, r, true)
        | None => (n, 0, s2, false)
        end in
      let '(e, s4, has_exp) :=
        match scan_exp s3 with
        | Some (e, r) => (e, r, true)
        | None => (0%Z, s3, false)
        end in
      if has_frac || has_exp
      then Some (VFloat (FDec neg m (e - Z.of_nat fcnt)), s4)
      else Some (VInt (if neg then (- Z.of_N n)%Z else Z.of_N n), s4)
  end.

Definition byte (n : N) : string := String (ascii_of_N n) EmptyString.

(** The UTF-8 bytes of a code point (a lone surrogate takes the
    three-byte form). *)
Definition utf8 (cp : N) : string :=
  if (cp <? 128)%N then byte cp
  else if (cp <? 2048)%N then
    byte (192 + cp / 64) ++ byte (128 + cp mod 64)
  else if (cp <? 65536)%N then
    byte (224 + cp / 4096) ++ byte (128 + (cp / 64) mod 64) ++ byte (128 + cp mod 64)
  else
    byte (240 + cp / 262144) ++ byte (128 + (cp / 4096) mod 64)
    ++ byte (128 + (cp / 64) mod 64) ++ byte (128 + cp mod 64).

Definition is_high (u : N) : bool := ((55296 <=? u) && (u <=? 56319))%N.
Definition is_low (u : N) : bool := ((56320 <=? u) && (u <=? 57343))%N.
Definition pair_point (h l : N) : N := (65536 + (h - 55296) * 1024 + (l - 56320))%N.

Definition simple_escape (c : ascii) : option ascii :=
  let n := N_of_ascii c in
  if (n =? 34)%N then Some quote
  else if (n =? 92)%N then Some backslash
  else if (n =? 47)%N then Some "/"%char
  else if (n =? 98)%N then Some (ascii_of_nat 8)
  else if (n =? 102)%N then Some (ascii_of_nat 12)
  else if (n =? 110)%N then Some (ascii_of_nat 10)
  else if (n =? 114)%N then Some (ascii_of_nat 13)
  else if (n =? 116)%N then Some (ascii_of_nat 9)
  else None.

Definition prepend (p : string) (r : option (string * string))
  : option (string * string) :=
  match r with
  | Some (t, rest) => Some ((p ++ t)%string, rest)
  | None => None
  end.

(** The body of a string literal, after its opening quote: the decoded
    text and what follows the closing quote.  [pending] is a high
    surrogate read from a [\u] escape and not yet written, waiting for
    its low half. *)
Fixpoint scanstring (s : string) (pending : option N) : option (string * string) :=
  let flush := match pending with Some h => utf8 h | None => EmptyString end in
  match s with
  | EmptyString => None
  | String c rest =>
      if Ascii.eqb c quote then Some (flush, rest)
      else if Ascii.eqb c backslash then
        match rest with
        | EmptyString => None
        | String e rest' =>
            if Ascii.eqb e "u" then
              match rest' with
              | String h1 (String h2 (String h3 (String h4 rest''))) =>
                  match hex4 h1 h2 h3 h4 with
                  | None => None
                  | Some uni =>
                      match pending with
                      | Some h =>
                          if is_low uni
                          then prepend (utf8 (pair_point h uni)) (scanstring rest'' None)
                          else if is_high uni
                          then prepend (utf8 h) (scanstring rest'' (Some uni))
                          else prepend (utf8 h ++ utf8 uni)%string (scanstring rest'' None)
                      | None =>
                          if is_high uni
                          then scanstring rest'' (Some uni)
                          else prepend (utf8 uni) (scanstring rest'' None)
                      end
                  end
              | _ => None
              end
            else
              match simple_escape e with
              | Some ch => prepend (flush ++ String ch EmptyString)%string (scanstring rest' None)
              | None => None
              end
        end
      else if (N_of_ascii c <? 32)%N then None
      else prepend (flush ++ String c EmptyString)%string (scanstring rest None)
  end.

(** [dict(pairs)]: a later pair replaces the value of an equal key and
    keeps its place. *)
Fixpoint dict_set (d : pydict) (k : string) (v : value) : pydict :=
  match d with
  | [] => [(k, v)]
  | (k', v') :: rest =>
      if String.eqb k' k then (k', v) :: rest else (k', v') :: dict_set rest k v
  end.

Definition dict_of_pairs (pairs : list (string * value)) : pydict :=
  fold_left (fun d kv => dict_set d (fst kv) (snd kv)) pairs [].

Definition starts_with (c : ascii) (s : string) : option string :=
  match s with
  | String c' rest => if Ascii.eqb c c' then Some rest else None
  | EmptyString => None
  end.

(** The value that starts at the head of [s] ([scan_once]), the items
    of an array after its bracket, and the members of an object after
    the opening quote of a key.  [fuel] bounds the depth of the calls;
    running out of it is Python's [RecursionError]. *)
Fixpoint scan_once (fuel : nat) (s : string) : result (value * string) :=
  match fuel with
  | O => Raise RecursionError
  | S fuel' =>
      match s with
      | EmptyString => Raise JSONDecodeError
      | String c rest =>
          if Ascii.eqb c quote then
            match scanstring rest None with
            | Some (t, r) => Ok (VStr t, r)
            | None => Raise JSONDecodeError
            end
          else if Ascii.eqb c "{" then
            let s1 := skip_ws rest in
            match starts_with "}" s1, starts_with quote s1 with
            | Some r, _ => Ok (VDict [], r)
            | None, Some r => parse_members fuel' r []
            | None, None => Raise JSONDecodeError
            end
          else if Ascii.eqb c "[" then
            let s1 := skip_ws rest in
            match starts_with "]" s1 with
            | Some r => Ok (VList [], r)
            | None => parse_elements fuel' s1 []
            end
          else
            match strip_prefix "null" s, strip_prefix "true" s,
                  strip_prefix "false" s with
            | Some r, _, _ => Ok (VNone, r)
            | None, Some r, _ => Ok (VBool true, r)
            | None, None, Some r => Ok (VBool false, r)
            | None, None, None =>
                match match_number s with
                | Some (v, r) => Ok (v, r)
                | None =>
                    match strip_prefix "NaN" s, strip_prefix "Infinity" s,
                          strip_prefix "-Infinity" s with
                    | Some r, _, _ => Ok (VFloat FNaN, r)
                    | None, Some r, _ => Ok (VFloat (FInf false), r)
                    | None, None, Some r => Ok (VFloat (FInf true), r)
                    | None, None, None => Raise JSONDecodeError
                    end
                end
            end
      end
  end
with parse_elements (fuel : nat) (s : string) (acc : list value)
  : result (value * string) :=
  match fuel with
  | O => Raise RecursionError
  | S fuel' =>
      match scan_once fuel' s with
      | Raise e => Raise e
      | Ok (v, r) =>
          let r1 := skip_ws r in
          match starts_with "]" r1, starts_with "," r1 with
          | Some r2, _ => Ok (VList (rev (v :: acc)), r2)
          | None, Some r2 => parse_elements fuel' (skip_ws r2) (v :: acc)
          | None, None => Raise JSONDecodeError
          end
      end
  end
with parse_members (fuel : nat) (s : string) (acc : list (string * value))
  : result (value * string) :=
  match fuel with
  | O => Raise RecursionError
  | S fuel' =>
      match scanstring s None with
      | None => Raise JSONDecodeError
      | Some (key, r) =>
          match starts_with ":" (skip_ws r) with
          | None => Raise JSONDecodeError
          | Some r1 =>
              match scan_once fuel' (skip_ws r1) with
              | Raise e => Raise e
              | Ok (v, r2) =>
                  let r3 := skip_ws r2 in
                  match starts_with "}" r3, starts_with "," r3 with
                  | Some r4, _ =>
                      Ok (VDict (dict_of_pairs (rev ((key, v) :: acc))), r4)
                  | None, Some r4 =>
                      match starts_with quote (skip_ws r4) with
                      | Some r5 => parse_members fuel' r5 ((key, v) :: acc)
                      | None => Raise JSONDecodeError
                      end
                  | None, None => Raise JSONDecodeError
                  end
              end
          end
      end
  end.

(** [json.loads(s)] for a [str]: one value between optional white
    space, and nothing after it. *)
Definition loads_text (s : string) : result value :=
  match scan_once (2 * String.length s + 2) (skip_ws s) with
  | Raise e => Raise e
  | Ok (v, r) =>
      match skip_ws r with
      | EmptyString => Ok v
      | String _ _ => Raise JSONDecodeError
      end
  end.

(** [json.loads(obj)]: anything but text is a [TypeError]. *)
Definition loads (obj : value) : result value :=
  match obj with
  | VStr s => loads_text s
  | _ => Raise TypeError
  end.

(** *** A serialiser

    Values written back as JSON text: items separated by a comma and a
    space, a float as its mantissa and decimal exponent. *)

Definition show_N (n : N) : string := NilEmpty.string_of_uint (N.to_uint n).

Definition show_Z (z : Z) : string :=
  match z with
  | Zneg p => String "-" (show_N (Npos p))
  | _ => show_N (Z.to_N z)
  end.

Definition show_float (f : pyfloat) : string :=
  match f with
  | FDec neg m e =>
      ((if neg then "-" else "") ++ show_N m ++ "e" ++ show_Z e)%string
  | FNaN => "NaN"
  | FInf neg => if neg then "-Infinity" else "Infinity"
  end.

Definition hex_digit (n : N) : ascii :=
  if (n <? 10)%N then ascii_of_N (48 + n) else ascii_of_N (87 + n).

Fixpoint escape (s : string) : string :=
  match s with
  | EmptyString => EmptyString
  | String c rest =>
      let n := N_of_ascii c in
      ((if (n =? 34)%N then String backslash (String quote EmptyString)
        else if (n =? 92)%N then String backslash (String backslash EmptyString)
        else if (n <? 32)%N then
          String backslash
            (String "u" (String "0" (String "0"
               (String (hex_digit (n / 16)) (String (hex_digit (n mod 16)) EmptyString)))))
        else String c EmptyString) ++ escape rest)%string
  end.

Definition show_string (s : string) : string :=
  String quote (escape s ++ String quote EmptyString).

Fixpoint dumps (v : value) : string :=
  match v with
  | VNone => "null"
  | VBool b => if b then "true" else "false"
  | VInt z => show_Z z
  | VFloat f => show_float f
  | VStr s => show_string s
  | VList l => ("[" ++ String.concat ", " (map dumps l) ++ "]")%string
  | VDict d =>
      ("{" ++ String.concat ", "
                (map (fun kv : string * value =>
                        let (k, x) := kv in
                        (show_string k ++ ": " ++ dumps x)%string) d)
           ++ "}")%string
  end.

(** Text written with apostrophes where the JSON has double quotes. *)
Fixpoint dq (s : string) : string :=
  match s with
  | String c rest => String (if Ascii.eqb c "'" then quote else c) (dq rest)
  | EmptyString => EmptyString
  end.

End Json.

(** ** Scenario data *)

(** Scenario A: a complete prediction. *)
Definition scenario_A_text : string :=
  Json.dq "{'winner_team_id': 1, 'winner_team_name': 'Texas', 'projected_score': {'1': 27, '2': 24}, 'confidence_winner': 0.63, 'confidence_score_band': 'medium', 'key_factors': ['offense'], 'risk_factors': []}".

(** Scenario B: text that is no JSON. *)
Definition scenario_B_text : string := "not json at all".

(** A prediction whose [projected_score] is a number. *)
Definition score_as_number_text : string := Json.dq "{'projected_score': 5}".

(** A prediction with null factors and a list for [projected_score]. *)
Definition score_as_list_text : string :=
  Json.dq "{'key_factors': null, 'projected_score': [27, 24]}".

(** A prediction whose [projected_score] is zero. *)
Definition zero_score_text : string :=
  Json.dq "{'winner_team_id': 2, 'projected_score': 0}".

(** A prediction with null factors and a usable [projected_score]. *)
Definition null_factors_text : string :=
  Json.dq "{'key_factors': null, 'projected_score': {'1': 10}}".

(** Valid JSON that is no object. *)
Definition bare_list_text : string := "[1, 2]".

Definition row_of (model_name : string) (text : string) : Series :=
  [("model", VStr model_name); ("completion_text", VStr text)].

(** ** Abbreviations used in the statements *)

(** The object whose [get] yields the two scores:
    [data.get("projected_score", {}) or {}]. *)
Definition score_source (d : pydict) : value :=
  py_or (dict_get d "projected_score" (VDict [])) (VDict []).

(** The full record for parsed data [d] once the scores were read from
    the mapping [ps]. *)
Definition full_record (model_name : value) (d ps : pydict) : pydict :=
  [("model", model_name);
   ("valid_json", VBool true);
   ("winner_team_id", dict_get d "winner_team_id" VNone);
   ("winner_team_name", dict_get d "winner_team_name" VNone);
   ("score_team_1", dict_get ps "1" VNone);
   ("score_team_2", dict_get ps "2" VNone);
   ("confidence_winner", dict_get d "confidence_winner" VNone);
   ("confidence_score_band", dict_get d "confidence_score_band" VNone);
   ("key_factors", dict_get d "key_factors" (VList []));
   ("risk_factors", dict_get d "risk_factors" (VList []))].

(** A row is usable when its parsed data, if a [dict], offers a mapping
    (or nothing truthy) under [projected_score]. *)
Definition usable (json_loads : value -> result value)
           (repair_json : option (value -> result value)) (row : Series) : Prop :=
  forall d,
    safe_json_load json_loads repair_json
      (Series_get row "completion_text" (VStr "")) = Ok (VDict d) ->
    is_dict (score_source d) = true.

(** The keys of the parsed object that [parse_council_df] reads. *)
Definition recognized_keys : list string :=
  ["projected_score"; "winner_team_id"; "winner_team_name"; "confidence_winner";
   "confidence_score_band"; "key_factors"; "risk_factors"].

(** The columns of a full record and of a minimal one, in the order the
    record is written. *)
Definition full_columns : list string :=
  ["model"; "valid_json"; "winner_team_id"; "winner_team_name"; "score_team_1";
   "score_team_2"; "confidence_winner"; "confidence_score_band"; "key_factors";
   "risk_factors"].

Definition minimal_columns : list string := ["model"; "raw"; "valid_json"].

(** A prediction cut off before its closing brace, and a repair
    capability that does nothing but close the object. *)
Definition truncated_text : string := Json.dq "{'winner_team_id': 1".

Definition close_brace (s : value) : result value :=
  match s with
  | VStr t => Ok (VStr (t ++ "}"))
  | _ => Raise TypeError
  end.

(** A prediction whose scores are keyed by team names. *)
Definition named_scores_text : string :=
  Json.dq "{'winner_team_id': 'Texas', 'projected_score': {'Texas': 27, 'Rice': 24}, 'note': 'x'}".

(** The same prediction without the extra key, its keys in another
    order. *)
Definition named_scores_reordered_text : string :=
  Json.dq "{'projected_score': {'Texas': 27, 'Rice': 24}, 'winner_team_id': 'Texas'}".

(** ** Configured paths ([config.py]) *)

(** A resolved absolute path: the names below the root, outermost
    first. *)
Definition Path : Type := list string.

(** [p / name], for a one-name relative segment. *)
Definition joinpath (p : Path) (name : string) : Path := p ++ [name].

(** [p.parents[k]]: [p] without its last [k + 1] names; an [IndexError]
    when [p] has no more than [k] names. *)
Definition parents (p : Path) (k : nat) : result Path :=
  if Nat.ltb k (length p)
  then Ok (firstn (length p - (k + 1)) p)
  else Raise (OtherException "IndexError").

Record Config : Type := mkConfig {
  BASE_DIR : Path;
  CONTEXT_DIR : Path;
  PROMPT_DIR : Path;
  GAME_DATA_FILE : Path;
  AGENT_SYSTEM_PROMPT_FILE : Path
}.

(** The module body of [config.py], [file] being
    [Path(__file__).resolve()]. *)
Definition config (file : Path) : result Config :=
  base_dir <- parents file 1 ;;
  let context_dir := joinpath base_dir "context" in
  let prompt_dir := joinpath base_dir "prompts" in
  Ok (mkConfig base_dir context_dir prompt_dir
        (joinpath context_dir "game_data.toon")
        (joinpath prompt_dir "agent_system_prompt.txt")).

(** ** Facts about the reference parser's inputs *)

Example loads_scenario_A :
  Json.loads (VStr scenario_A_text) =
  Ok (VDict [("winner_team_id", VInt 1); ("winner_team_name", VStr "Texas");
             ("projected_score", VDict [("1", VInt 27); ("2", VInt 24)]);
             ("confidence_winner", VFloat (FDec false 63 (-2)));
             ("confidence_score_band", VStr "medium");
             ("key_factors", VList [VStr "offense"]);
             ("risk_factors", VList [])]).
Proof. vm_compute. reflexivity. Qed.

Example loads_scenario_B : Json.loads (VStr scenario_B_text) = Raise JSONDecodeError.
Proof. vm_compute. reflexivity. Qed.

Example loads_score_as_number :
  Json.loads (VStr score_as_number_text) = Ok (VDict [("projected_score", VInt 5)]).
Proof. vm_compute. reflexivity. Qed.

Example loads_not_text : Json.loads (VInt 7) = Raise TypeError.
Proof. reflexivity. Qed.

(** ** General facts, for any strict parser and any repair capability *)

Section LoaderFacts.

Variable json_loads : value -> result value.
Variable repair_json : option (value -> result value).

Local Abbreviation safe_json_load := (safe_json_load json_loads repair_json).
Local Abbreviation council_record := (council_record json_loads repair_json).
Local Abbreviation parse_council_df := (parse_council_df json_loads repair_json).
Local Abbreviation iterrows_loop := (iterrows_loop json_loads repair_json).
Local Abbreviation usable := (usable json_loads repair_json).

Lemma try_except_Ok {A : Type} (body handler : result A) (a : A) :
  body = Ok a -> try_except body handler = Ok a.
Proof. intros ->. reflexivity. Qed.

Lemma try_except_Raise {A : Type} (body handler : result A) (e : exn) :
  body = Raise e -> try_except body handler = handler.
Proof. intros ->. reflexivity. Qed.

Lemma try_except_total {A : Type} (body : result A) (a : A) :
  exists r, try_except body (Ok a) = Ok r.
Proof. destruct body as [b | e]; simpl; eauto. Qed.

(** [safe_json_load] always returns. *)
Lemma safe_json_load_total (s : value) : exists v, safe_json_load s = Ok v.
Proof.
  unfold safe_json_load.
  destruct (json_loads s) as [v | e]; simpl; [eauto |].
  destruct repair_json as [repair |]; [apply try_except_total | eauto].
Qed.

(** Strict parsing that succeeds decides the result. *)
Lemma safe_json_load_strict (s v : value) :
  json_loads s = Ok v -> safe_json_load s = Ok v.
Proof. intros Hs. unfold safe_json_load. now apply try_except_Ok. Qed.

(** A row whose text yields no [dict] gets the minimal record. *)
Lemma council_record_non_dict (row : Series) (data : value) :
  safe_json_load (Series_get row "completion_text" (VStr "")) = Ok data ->
  is_dict data = false ->
  council_record row =
  Ok (minimal_record (Series_get row "model" VNone)
                     (Series_get row "completion_text" (VStr ""))).
Proof.
  intros Hload Hshape. unfold council_record.
  rewrite Hload. simpl. rewrite Hshape. rewrite orb_true_r. reflexivity.
Qed.

(** A row whose text yields the [dict] [d]: everything hinges on the
    two [get] calls on [score_source d]. *)
Lemma council_record_dict (row : Series) (d : pydict) :
  safe_json_load (Series_get row "completion_text" (VStr "")) = Ok (VDict d) ->
  council_record row =
  (score_team_1 <- method_get (score_source d) "1" VNone ;;
   score_team_2 <- method_get (score_source d) "2" VNone ;;
   Ok (full_record (Series_get row "model" VNone) d
         (match score_source d with VDict ps => ps | _ => [] end))).
Proof.
  intros Hload. unfold council_record. rewrite Hload. simpl.
  fold (score_source d). destruct (score_source d); reflexivity.
Qed.

Lemma council_record_scores (row : Series) (d ps : pydict) :
  safe_json_load (Series_get row "completion_text" (VStr "")) = Ok (VDict d) ->
  score_source d = VDict ps ->
  council_record row = Ok (full_record (Series_get row "model" VNone) d ps).
Proof.
  intros Hload Hps. rewrite (council_record_dict row d Hload), Hps. reflexivity.
Qed.

Lemma council_record_no_scores (row : Series) (d : pydict) :
  safe_json_load (Series_get row "completion_text" (VStr "")) = Ok (VDict d) ->
  is_dict (score_source d) = false ->
  council_record row = Raise AttributeError.
Proof.
  intros Hload Hps. rewrite (council_record_dict row d Hload).
  destruct (score_source d); try reflexivity. discriminate.
Qed.

(** Every outcome of the loop body is one of the three above. *)
Lemma council_record_cases (row : Series) :
  council_record row =
    Ok (minimal_record (Series_get row "model" VNone)
                       (Series_get row "completion_text" (VStr "")))
  \/ (exists d ps, score_source d = VDict ps /\
        council_record row = Ok (full_record (Series_get row "model" VNone) d ps))
  \/ (exists d, is_dict (score_source d) = false /\
        council_record row = Raise AttributeError).
Proof.
  destruct (safe_json_load_total (Series_get row "completion_text" (VStr "")))
    as [data Hload].
  destruct (is_dict data) eqn:Hshape.
  - destruct data as [ | b | z | f | s | l | d]; try discriminate.
    destruct (is_dict (score_source d)) eqn:Hps.
    + destruct (score_source d) as [ | b | z | f | s | l | ps] eqn:Hsrc;
        try discriminate.
      right; left. exists d, ps. split; [assumption |].
      exact (council_record_scores row d ps Hload Hsrc).
    + right; right. exists d. split; [assumption |].
      exact (council_record_no_scores row d Hload Hps).
  - left. exact (council_record_non_dict row data Hload Hshape).
Qed.

(** *** The loop *)

Lemma iterrows_loop_acc (rows : list Series) (records : list pydict) :
  iterrows_loop rows records =
  (out <- iterrows_loop rows [] ;; Ok (records ++ out)).
Proof.
  revert records. induction rows as [| row rest IH]; intros records; simpl.
  - now rewrite app_nil_r.
  - destruct (council_record row) as [record | e]; simpl; [| reflexivity].
    rewrite (IH (records ++ [record])), (IH [record]).
    destruct (iterrows_loop rest []) as [out | e]; simpl; [| reflexivity].
    now rewrite <- app_assoc.
Qed.

Lemma parse_council_df_cons (row : Series) (rest : list Series) :
  parse_council_df (row :: rest) =
  (record <- council_record row ;;
   out <- parse_council_df rest ;;
   Ok (record :: out)).
Proof.
  unfold parse_council_df. simpl.
  destruct (council_record row) as [record | e]; simpl; [| reflexivity].
  apply iterrows_loop_acc.
Qed.

(** The frame is returned exactly when every row yields a record, and
    then holds these records, row by row. *)
Lemma parse_council_df_Ok (rows : list Series) (out : list pydict) :
  parse_council_df rows = Ok out <->
  Forall2 (fun row record => council_record row = Ok record) rows out.
Proof.
  revert out. induction rows as [| row rest IH]; intros out.
  - split.
    + intros [= <-]. constructor.
    + intros H. inversion H. reflexivity.
  - rewrite parse_council_df_cons. split.
    + destruct (council_record row) as [record | e] eqn:Hrow; simpl; [| discriminate].
      destruct (parse_council_df rest) as [out' | e] eqn:Hrest; simpl; [| discriminate].
      intros [= <-]. constructor; [assumption |]. now apply IH.
    + intros H. inversion H as [| ? record ? out' Hrow Hrest]; subst.
      rewrite Hrow. simpl. apply IH in Hrest. rewrite Hrest. reflexivity.
Qed.

Lemma parse_council_df_length (rows : list Series) (out : list pydict) :
  parse_council_df rows = Ok out -> length out = length rows.
Proof.
  intros H. apply parse_council_df_Ok in H.
  induction H; simpl; congruence.
Qed.

(** The first row that raises ends the loop with its exception: the
    records built so far and the rows that follow are lost. *)
Lemma parse_council_df_first_raise
      (before after : list Series) (row : Series) (e : exn) :
  Forall (fun r => exists record, council_record r = Ok record) before ->
  council_record row = Raise e ->
  parse_council_df (before ++ row :: after) = Raise e.
Proof.
  intros Hbefore Hrow. induction Hbefore as [| r before' [record Hr] _ IH]; simpl.
  - rewrite parse_council_df_cons, Hrow. reflexivity.
  - rewrite parse_council_df_cons, Hr. simpl. rewrite IH. reflexivity.
Qed.

Lemma council_record_usable (row : Series) :
  usable row -> exists record, council_record row = Ok record.
Proof.
  intros Hrow.
  destruct (safe_json_load_total (Series_get row "completion_text" (VStr "")))
    as [data Hload].
  destruct (is_dict data) eqn:Hshape.
  - destruct data as [ | b | z | f | s | l | d]; try discriminate.
    specialize (Hrow d Hload).
    destruct (score_source d) as [ | b | z | f | s | l | ps] eqn:Hsrc;
      try discriminate.
    eexists. exact (council_record_scores row d ps Hload Hsrc).
  - eexists. exact (council_record_non_dict row data Hload Hshape).
Qed.



(** *** The parser wrapper *)

(** C2: [safe_json_load] returns for every argument, never raising;
    and when strict parsing raises, it returns [None] if no repair
    capability is installed, if the repair raises, or if strict parsing
    of the repaired text raises. *)
Theorem safe_json_load_never_raises (s : value) :
  (exists v, safe_json_load s = Ok v) /\
  (forall e, json_loads s = Raise e ->
     (repair_json = None \/
      exists repair, repair_json = Some repair /\
        ((exists e', repair s = Raise e') \/
         (exists repaired e', repair s = Ok repaired /\
                              json_loads repaired = Raise e'))) ->
     safe_json_load s = Ok VNone).
Proof.
  split; [apply safe_json_load_total |].
  intros e Hstrict Hrepair. unfold safe_json_load.
  rewrite (try_except_Raise _ _ e Hstrict).
  destruct Hrepair as [-> | (repair & -> & [[e' Hr] | (repaired & e' & Hr & Hagain)])].
  - reflexivity.
  - rewrite Hr. reflexivity.
  - rewrite Hr. simpl. rewrite Hagain. reflexivity.
Qed.

(** C3: whatever strict parsing returns for a text, be it an object, an
    array or a scalar, [safe_json_load] returns unchanged; hence a
    value that strict parsing reads back from its serialisation is
    also read back by [safe_json_load]. *)
Theorem safe_json_load_strict_result :
  (forall s v, json_loads s = Ok v -> safe_json_load s = Ok v) /\
  (forall (json_dumps : value -> value) v,
      json_loads (json_dumps v) = Ok v ->
      safe_json_load (json_dumps v) = Ok v).
Proof.
  split.
  - exact safe_json_load_strict.
  - intros json_dumps v. apply safe_json_load_strict.
Qed.

(** *** The records *)

(** C5: a row whose text yields no result ([None]) or something that is
    not a [dict] gets exactly the record
    [{model, raw: completion_text, valid_json: False}] and no other
    field. *)
Theorem non_dict_row_minimal_record (row : Series) (data : value) :
  safe_json_load (Series_get row "completion_text" (VStr "")) = Ok data ->
  is_dict data = false ->
  council_record row =
    Ok [("model", Series_get row "model" VNone);
        ("raw", Series_get row "completion_text" (VStr ""));
        ("valid_json", VBool false)] /\
  parse_council_df [row] =
    Ok [[("model", Series_get row "model" VNone);
         ("raw", Series_get row "completion_text" (VStr ""));
         ("valid_json", VBool false)]].
Proof.
  intros Hload Hshape.
  pose proof (council_record_non_dict row data Hload Hshape) as Hrec.
  split; [exact Hrec |].
  rewrite parse_council_df_cons, Hrec. reflexivity.
Qed.







End LoaderFacts.

(** ** The prompt *)

Lemma length_append (a b : string) :
  String.length (a ++ b) = String.length a + String.length b.
Proof. induction a as [| c a IH]; simpl; [reflexivity | now rewrite IH]. Qed.

Lemma substring_whole (a : string) : substring 0 (String.length a) a = a.
Proof. induction a as [| c a IH]; simpl; [reflexivity | now rewrite IH]. Qed.

Lemma substring_prefix (a b : string) :
  substring 0 (String.length a) (a ++ b) = a.
Proof.
  induction a as [| c a IH]; simpl.
  - destruct b; reflexivity.
  - now rewrite IH.
Qed.

Lemma substring_skip (a b : string) (n m : nat) :
  substring (String.length a + n) m (a ++ b) = substring n m b.
Proof. induction a as [| c a IH]; simpl; [reflexivity | exact IH]. Qed.

(** [b] occurs in [a ++ b ++ c] right after [a]. *)
Lemma substring_middle (a b c : string) :
  substring (String.length a) (String.length b) (a ++ b ++ c) = b.
Proof.
  rewrite <- (Nat.add_0_r (String.length a)), substring_skip.
  apply substring_prefix.
Qed.

(** Looking [n] characters back from the end skips any prefix. *)
Lemma substring_from_end (a b : string) (n : nat) :
  n <= String.length b ->
  substring (String.length (a ++ b) - n) n (a ++ b) =
  substring (String.length b - n) n b.
Proof.
  intros Hn. rewrite length_append.
  replace (String.length a + String.length b - n)
    with (String.length a + (String.length b - n)) by lia.
  apply substring_skip.
Qed.

(** C7: the prompt is the system prompt, a blank line, the data header,
    the game data, a blank line and the two-line instruction, in this
    order: the system prompt starts the text, the header follows it two
    characters later, the game data follows the header, and the
    instruction ends the text.  Equal arguments give the same text. *)
Theorem build_agent_prompt_text_layout (system_prompt game_data_text : string) :
  let prompt := build_agent_prompt_text system_prompt game_data_text in
  let header_at := String.length system_prompt + 2 in
  let data_at := header_at + String.length GAME_DATA_HEADER in
  substring 0 (String.length system_prompt) prompt = system_prompt /\
  substring header_at (String.length GAME_DATA_HEADER) prompt = GAME_DATA_HEADER /\
  substring data_at (String.length game_data_text) prompt = game_data_text /\
  substring (String.length prompt - String.length COUNCIL_INSTRUCTION)
            (String.length COUNCIL_INSTRUCTION) prompt = COUNCIL_INSTRUCTION /\
  String.length prompt =
    data_at + String.length game_data_text + 2 + String.length COUNCIL_INSTRUCTION /\
  COUNCIL_INSTRUCTION =
    ("You are part of a council predicting the outcome of this game." ++ nl ++
     "Return ONLY a single JSON object matching the agreed schema.")%string /\
  (forall system_prompt' game_data_text',
      system_prompt' = system_prompt -> game_data_text' = game_data_text ->
      build_agent_prompt_text system_prompt' game_data_text' = prompt).
Proof.
  intros prompt header_at data_at.
  assert (Hblank : String.length (nl ++ nl) = 2) by reflexivity.
  subst prompt header_at data_at. unfold build_agent_prompt_text.
  split; [| split; [| split; [| split; [| split; [| split]]]]].
  - apply substring_prefix.
  - rewrite substring_skip, <- Hblank. apply substring_middle.
  - rewrite <- !Nat.add_assoc, substring_skip.
    rewrite <- Hblank at 1. rewrite substring_skip. apply substring_middle.
  - rewrite !substring_from_end; rewrite ?length_append; try lia.
    rewrite Nat.sub_diag. apply substring_whole.
  - rewrite !length_append. change (String.length nl) with 1. lia.
  - reflexivity.
  - intros system_prompt' game_data_text' -> ->. reflexivity.
Qed.

(** ** Scenarios on the reference parser *)

Lemma council_record_loads (repair_json : option (value -> result value))
      (row : Series) (text : string) (d ps : pydict) :
  Series_get row "completion_text" (VStr "") = VStr text ->
  Json.loads (VStr text) = Ok (VDict d) ->
  score_source d = VDict ps ->
  council_record Json.loads repair_json row =
  Ok (full_record (Series_get row "model" VNone) d ps).
Proof.
  intros Htext Hloads Hsrc.
  apply council_record_scores; [| exact Hsrc].
  rewrite Htext. now apply safe_json_load_strict.
Qed.

Lemma council_record_loads_raises (repair_json : option (value -> result value))
      (row : Series) (text : string) (d : pydict) :
  Series_get row "completion_text" (VStr "") = VStr text ->
  Json.loads (VStr text) = Ok (VDict d) ->
  is_dict (score_source d) = false ->
  council_record Json.loads repair_json row = Raise AttributeError.
Proof.
  intros Htext Hloads Hsrc.
  apply (council_record_no_scores _ _ row d); [| exact Hsrc].
  rewrite Htext. now apply safe_json_load_strict.
Qed.

(** C6: Scenario A.  A row carrying the scenario's text gets the
    [valid_json: True] record with winner 1, "Texas", scores 27 and 24,
    confidence 0.63, band "medium", key factors ["offense"] and no risk
    factor; the two scores are the values bound to the string keys "1"
    and "2" of the nested [projected_score] mapping. *)
Theorem scenario_A_record (repair_json : option (value -> result value)) (row : Series) :
  Series_get row "completion_text" (VStr "") = VStr scenario_A_text ->
  parse_council_df Json.loads repair_json [row] =
    Ok [[("model", Series_get row "model" VNone);
         ("valid_json", VBool true);
         ("winner_team_id", VInt 1);
         ("winner_team_name", VStr "Texas");
         ("score_team_1", VInt 27);
         ("score_team_2", VInt 24);
         ("confidence_winner", VFloat (FDec false 63 (-2)));
         ("confidence_score_band", VStr "medium");
         ("key_factors", VList [VStr "offense"]);
         ("risk_factors", VList [])]] /\
  exists d ps,
    Json.loads (VStr scenario_A_text) = Ok (VDict d) /\
    dict_lookup "projected_score" d = Some (VDict ps) /\
    dict_lookup "1" ps = Some (VInt 27) /\
    dict_lookup "2" ps = Some (VInt 24).
Proof.
  intros Htext. split.
  - rewrite parse_council_df_cons.
    rewrite (council_record_loads repair_json row scenario_A_text _
               [("1", VInt 27); ("2", VInt 24)] Htext loads_scenario_A eq_refl).
    reflexivity.
  - eexists. eexists. split; [exact loads_scenario_A |].
    repeat split.
Qed.

(** C1: an exception does escape [parse_council_df].  In a batch of three
    rows whose second text is the object [{"projected_score": 5}], the
    number is asked for its [get]: [AttributeError] leaves the function,
    the record of the first row is lost and the third row is never
    read. *)
Theorem attribute_error_escapes (repair_json : option (value -> result value)) :
  parse_council_df Json.loads repair_json
    [row_of "model-a" scenario_A_text;
     row_of "model-b" score_as_number_text;
     row_of "model-c" scenario_B_text]
  = Raise AttributeError.
Proof.
  apply (parse_council_df_first_raise _ _ [row_of "model-a" scenario_A_text]).
  - constructor; [| constructor]. eexists.
    exact (council_record_loads repair_json (row_of "model-a" scenario_A_text)
             scenario_A_text _ _ eq_refl loads_scenario_A eq_refl).
  - exact (council_record_loads_raises repair_json
             (row_of "model-b" score_as_number_text) score_as_number_text _
             eq_refl loads_score_as_number eq_refl).
Qed.

Example loads_score_as_list :
  Json.loads (VStr score_as_list_text) =
  Ok (VDict [("key_factors", VNone); ("projected_score", VList [VInt 27; VInt 24])]).
Proof. vm_compute. reflexivity. Qed.

(** C4: a batch of one row can come back with no record at all.  The
    row's text is the object
    [{"key_factors": null, "projected_score": [27, 24]}]; the list is
    asked for its [get] and the call ends in [AttributeError], so no
    frame, of any length, is returned. *)
Theorem one_row_no_record (repair_json : option (value -> result value)) :
  parse_council_df Json.loads repair_json [row_of "model-a" score_as_list_text]
  = Raise AttributeError /\
  forall out,
    parse_council_df Json.loads repair_json [row_of "model-a" score_as_list_text]
    <> Ok out.
Proof.
  assert (H : parse_council_df Json.loads repair_json
                [row_of "model-a" score_as_list_text] = Raise AttributeError).
  { apply (parse_council_df_first_raise _ _ []); [constructor |].
    exact (council_record_loads_raises repair_json
             (row_of "model-a" score_as_list_text) score_as_list_text _
             eq_refl loads_score_as_list eq_refl). }
  split; [exact H |]. intros out. rewrite H. discriminate.
Qed.

(** ** Instances on the reference parser *)

Example loads_zero_score :
  Json.loads (VStr zero_score_text) =
  Ok (VDict [("winner_team_id", VInt 2); ("projected_score", VInt 0)]).
Proof. vm_compute. reflexivity. Qed.

Example loads_null_factors :
  Json.loads (VStr null_factors_text) =
  Ok (VDict [("key_factors", VNone); ("projected_score", VDict [("1", VInt 10)])]).
Proof. vm_compute. reflexivity. Qed.

Example loads_bare_list :
  Json.loads (VStr bare_list_text) = Ok (VList [VInt 1; VInt 2]).
Proof. vm_compute. reflexivity. Qed.

(** Scenario B, without repair capability: garbage gives [None]. *)
Lemma safe_json_load_never_raises_witness :
  Json.loads (VStr scenario_B_text) = Raise JSONDecodeError /\
  safe_json_load Json.loads None (VStr scenario_B_text) = Ok VNone.
Proof.
  split; [vm_compute; reflexivity |].
  apply (proj2 (safe_json_load_never_raises Json.loads None (VStr scenario_B_text))
           JSONDecodeError).
  - vm_compute. reflexivity.
  - left. reflexivity.
Defined.

(** An array, and a nested value written out and read back. *)
Lemma safe_json_load_strict_result_witness :
  safe_json_load Json.loads None (VStr bare_list_text) = Ok (VList [VInt 1; VInt 2]) /\
  let v := VDict [("id", VInt (-3)); ("p", VFloat (FDec false 63 (-2)));
                  ("tags", VList [VStr "a b"; VNone; VBool true])] in
  Json.dumps v = Json.dq "{'id': -3, 'p': 63e-2, 'tags': ['a b', null, true]}" /\
  safe_json_load Json.loads None (VStr (Json.dumps v)) = Ok v.
Proof.
  split; [| split].
  - apply (proj1 (safe_json_load_strict_result Json.loads None)).
    vm_compute. reflexivity.
  - vm_compute. reflexivity.
  - apply (proj2 (safe_json_load_strict_result Json.loads None)
             (fun v => VStr (Json.dumps v))).
    vm_compute. reflexivity.
Defined.

(** Scenario B as a row, and a row whose text is a bare list. *)
Lemma non_dict_row_minimal_record_witness :
  parse_council_df Json.loads None [row_of "model-b" scenario_B_text] =
    Ok [[("model", VStr "model-b"); ("raw", VStr "not json at all");
         ("valid_json", VBool false)]] /\
  parse_council_df Json.loads None [row_of "model-c" bare_list_text] =
    Ok [[("model", VStr "model-c"); ("raw", VStr "[1, 2]");
         ("valid_json", VBool false)]].
Proof.
  split.
  - apply (non_dict_row_minimal_record Json.loads None
             (row_of "model-b" scenario_B_text) VNone);
      vm_compute; reflexivity.
  - apply (non_dict_row_minimal_record Json.loads None
             (row_of "model-c" bare_list_text) (VList [VInt 1; VInt 2]));
      vm_compute; reflexivity.
Defined.

Lemma scenario_A_record_witness :
  parse_council_df Json.loads None [row_of "model-a" scenario_A_text] =
    Ok [[("model", VStr "model-a");
         ("valid_json", VBool true);
         ("winner_team_id", VInt 1);
         ("winner_team_name", VStr "Texas");
         ("score_team_1", VInt 27);
         ("score_team_2", VInt 24);
         ("confidence_winner", VFloat (FDec false 63 (-2)));
         ("confidence_score_band", VStr "medium");
         ("key_factors", VList [VStr "offense"]);
         ("risk_factors", VList [])]].
Proof.
  apply (proj1 (scenario_A_record None (row_of "model-a" scenario_A_text) eq_refl)).
Defined.

(** Scenario D. *)
Lemma build_agent_prompt_text_layout_witness :
  build_agent_prompt_text "SYS" "DATA" =
    ("SYS" ++ nl ++ nl ++ "----- GAME_DATA (TOON) -----" ++ nl ++ "DATA" ++ nl ++ nl
     ++ "You are part of a council predicting the outcome of this game." ++ nl
     ++ "Return ONLY a single JSON object matching the agreed schema.")%string /\
  substring 5 29 (build_agent_prompt_text "SYS" "DATA") = GAME_DATA_HEADER /\
  substring 34 4 (build_agent_prompt_text "SYS" "DATA") = "DATA".
Proof.
  destruct (build_agent_prompt_text_layout "SYS" "DATA")
    as (_ & Hheader & Hdata & _ & _ & _ & Hsame).
  split; [| split].
  - etransitivity; [exact (Hsame "SYS" "DATA" eq_refl eq_refl) | reflexivity].
  - exact Hheader.
  - exact Hdata.
Defined.




(** ** Further properties of the loaders *)

Section LoaderProperties.

Variable json_loads : value -> result value.
Variable repair_json : option (value -> result value).

Local Abbreviation safe_json_load := (safe_json_load json_loads repair_json).
Local Abbreviation council_record := (council_record json_loads repair_json).
Local Abbreviation parse_council_df := (parse_council_df json_loads repair_json).
Local Abbreviation usable := (usable json_loads repair_json).

(** X1: the repair path.  When strict parsing of the text raises, a
    repair capability is installed, it returns a repaired text and
    strict parsing accepts that text, [safe_json_load] returns what the
    repaired text parses to. *)
Theorem safe_json_load_repaired
        (s repaired v : value) (repair : value -> result value) (e : exn) :
  json_loads s = Raise e ->
  repair_json = Some repair ->
  repair s = Ok repaired ->
  json_loads repaired = Ok v ->
  safe_json_load s = Ok v.
Proof.
  intros Hstrict Hcap Hrepair Hagain. unfold safe_json_load.
  rewrite (try_except_Raise _ _ e Hstrict), Hcap, Hrepair. simpl.
  now rewrite Hagain.
Qed.

(** X2: nothing is made up.  A result of [safe_json_load] is what strict
    parsing returned for the text, or what it returned for the repaired
    text after failing on the original, or [None] after a failure of
    strict parsing. *)
Theorem safe_json_load_provenance (s v : value) :
  safe_json_load s = Ok v ->
  json_loads s = Ok v \/
  (exists e repair repaired,
      json_loads s = Raise e /\ repair_json = Some repair /\
      repair s = Ok repaired /\ json_loads repaired = Ok v) \/
  (v = VNone /\ exists e, json_loads s = Raise e).
Proof.
  unfold safe_json_load.
  destruct (json_loads s) as [v0 | e] eqn:Hstrict; simpl.
  - intros [= <-]. now left.
  - destruct repair_json as [repair |] eqn:Hcap.
    + destruct (repair s) as [repaired | e1] eqn:Hrepair; simpl.
      * destruct (json_loads repaired) as [v1 | e2] eqn:Hagain; simpl; intros [= <-].
        -- right; left. exists e, repair, repaired. repeat split; assumption.
        -- right; right. split; [reflexivity | now exists e].
      * intros [= <-]. right; right. split; [reflexivity | now exists e].
    + intros [= <-]. right; right. split; [reflexivity | now exists e].
Qed.

(** X3: the shape of a record.  Every record built for a row has
    [valid_json] true exactly when the text yielded a [dict]; its columns
    are then the ten of the full record, and otherwise [model], [raw]
    and [valid_json] only, so [raw] is kept for the failed rows alone. *)
Theorem record_schema (row : Series) (record : pydict) :
  council_record row = Ok record ->
  exists data,
    safe_json_load (Series_get row "completion_text" (VStr "")) = Ok data /\
    dict_lookup "valid_json" record = Some (VBool (is_dict data)) /\
    map fst record = (if is_dict data then full_columns else minimal_columns) /\
    (dict_lookup "raw" record =
       if is_dict data then None
       else Some (Series_get row "completion_text" (VStr ""))).
Proof.
  intros Hrec.
  destruct (safe_json_load_total json_loads repair_json
              (Series_get row "completion_text" (VStr ""))) as [data Hload].
  exists data. split; [exact Hload |].
  destruct (is_dict data) eqn:Hshape.
  - destruct data as [ | b | z | f | s | l | d]; try discriminate.
    rewrite (council_record_dict _ _ row d Hload) in Hrec.
    destruct (score_source d); try discriminate.
    injection Hrec as <-. repeat split.
  - rewrite (council_record_non_dict _ _ row data Hload Hshape) in Hrec.
    injection Hrec as <-. repeat split.
Qed.

Lemma score_source_mapping (d ps : pydict) :
  dict_lookup "projected_score" d = Some (VDict ps) ->
  score_source d = VDict ps.
Proof.
  intros Hps. unfold score_source, py_or, dict_get. rewrite Hps.
  destruct ps; reflexivity.
Qed.

(** X4: the full record.  When the text yields a [dict] whose
    [projected_score] is itself a mapping, the row gets the
    [valid_json: True] record whose fields are the values found under
    the recognised keys, whatever their types, and whose scores are the
    values the mapping binds to "1" and "2"; a mapping that binds other
    keys only gives [None] for both scores. *)
Theorem mapping_score_full_record (row : Series) (d ps : pydict) :
  safe_json_load (Series_get row "completion_text" (VStr "")) = Ok (VDict d) ->
  dict_lookup "projected_score" d = Some (VDict ps) ->
  council_record row =
    Ok [("model", Series_get row "model" VNone);
        ("valid_json", VBool true);
        ("winner_team_id", dict_get d "winner_team_id" VNone);
        ("winner_team_name", dict_get d "winner_team_name" VNone);
        ("score_team_1", dict_get ps "1" VNone);
        ("score_team_2", dict_get ps "2" VNone);
        ("confidence_winner", dict_get d "confidence_winner" VNone);
        ("confidence_score_band", dict_get d "confidence_score_band" VNone);
        ("key_factors", dict_get d "key_factors" (VList []));
        ("risk_factors", dict_get d "risk_factors" (VList []))] /\
  (dict_lookup "1" ps = None -> dict_lookup "2" ps = None ->
   exists record,
     council_record row = Ok record /\
     dict_lookup "score_team_1" record = Some VNone /\
     dict_lookup "score_team_2" record = Some VNone).
Proof.
  intros Hload Hps.
  pose proof (council_record_scores _ _ row d ps Hload (score_source_mapping d ps Hps))
    as Hrec.
  split; [exact Hrec |].
  intros H1 H2. eexists. split; [exact Hrec |].
  unfold full_record, dict_get. rewrite H1, H2. split; reflexivity.
Qed.

Lemma score_source_truthy (d : pydict) (v : value) :
  dict_lookup "projected_score" d = Some v ->
  truthy v = true ->
  score_source d = v.
Proof.
  intros Hv Ht. unfold score_source, py_or, dict_get. now rewrite Hv, Ht.
Qed.

(** X5: the unguarded case in general.  When the text yields a [dict]
    whose [projected_score] is truthy and not a mapping (a non-zero
    number, a non-empty string or list, [True]), the row raises
    [AttributeError]; and so does every batch in which such a row comes
    after rows that yield records, whatever follows it. *)
Theorem truthy_non_mapping_score_raises
        (row : Series) (d : pydict) (v : value) (before after : list Series) :
  safe_json_load (Series_get row "completion_text" (VStr "")) = Ok (VDict d) ->
  dict_lookup "projected_score" d = Some v ->
  truthy v = true ->
  is_dict v = false ->
  Forall usable before ->
  council_record row = Raise AttributeError /\
  parse_council_df (before ++ row :: after) = Raise AttributeError.
Proof.
  intros Hload Hv Ht Hshape Hbefore.
  assert (Hrow : council_record row = Raise AttributeError).
  { apply (council_record_no_scores _ _ row d Hload).
    now rewrite (score_source_truthy d v Hv Ht). }
  split; [exact Hrow |].
  apply parse_council_df_first_raise; [| exact Hrow].
  apply Forall_impl with (P := usable); [| exact Hbefore].
  intros r. apply council_record_usable.
Qed.

Lemma dict_get_agree (d1 d2 : pydict) (key : string) (default : value) :
  dict_lookup key d1 = dict_lookup key d2 ->
  dict_get d1 key default = dict_get d2 key default.
Proof. unfold dict_get. now intros ->. Qed.

(** X6: unrecognised keys are ignored.  Two rows with the same [model]
    whose texts yield dicts that agree on the seven recognised keys have
    the same outcome, record or exception, whatever else the dicts
    hold and in whatever order. *)
Theorem unrecognized_keys_ignored (row1 row2 : Series) (d1 d2 : pydict) :
  Series_get row1 "model" VNone = Series_get row2 "model" VNone ->
  safe_json_load (Series_get row1 "completion_text" (VStr "")) = Ok (VDict d1) ->
  safe_json_load (Series_get row2 "completion_text" (VStr "")) = Ok (VDict d2) ->
  (forall key, In key recognized_keys -> dict_lookup key d1 = dict_lookup key d2) ->
  council_record row1 = council_record row2.
Proof.
  intros Hmodel Hload1 Hload2 Hagree.
  rewrite (council_record_dict _ _ row1 d1 Hload1).
  rewrite (council_record_dict _ _ row2 d2 Hload2).
  assert (Hsrc : score_source d1 = score_source d2).
  { unfold score_source. f_equal. apply dict_get_agree, Hagree. simpl. tauto. }
  rewrite Hsrc, Hmodel. unfold full_record.
  rewrite (dict_get_agree d1 d2 "winner_team_id");
    [| apply Hagree; simpl; tauto].
  rewrite (dict_get_agree d1 d2 "winner_team_name");
    [| apply Hagree; simpl; tauto].
  rewrite (dict_get_agree d1 d2 "confidence_winner");
    [| apply Hagree; simpl; tauto].
  rewrite (dict_get_agree d1 d2 "confidence_score_band");
    [| apply Hagree; simpl; tauto].
  rewrite (dict_get_agree d1 d2 "key_factors");
    [| apply Hagree; simpl; tauto].
  rewrite (dict_get_agree d1 d2 "risk_factors");
    [| apply Hagree; simpl; tauto].
  reflexivity.
Qed.





Lemma Forall2_nth_error {A B : Type} (R : A -> B -> Prop)
      (xs : list A) (ys : list B) (i : nat) (x : A) :
  Forall2 R xs ys -> nth_error xs i = Some x ->
  exists y, nth_error ys i = Some y /\ R x y.
Proof.
  intros HR. revert i. induction HR as [| x0 y0 xs ys Hxy _ IH]; intros i.
  - destruct i; discriminate.
  - destruct i as [| i]; simpl.
    + intros [= <-]. now exists y0.
    + apply IH.
Qed.

(** X9: what a returned frame holds.  When [parse_council_df] returns,
    the frame has as many records as the batch has rows and its record
    at each position is the one built for the row at that position: no
    row is dropped, repeated or moved. *)
Theorem returned_frame_follows_rows (rows : list Series) (out : list pydict) :
  parse_council_df rows = Ok out ->
  length out = length rows /\
  (forall i row, nth_error rows i = Some row ->
     exists record, nth_error out i = Some record /\ council_record row = Ok record).
Proof.
  intros Hout. split.
  - exact (parse_council_df_length _ _ rows out Hout).
  - intros i row Hi. apply parse_council_df_Ok in Hout.
    exact (Forall2_nth_error _ rows out i row Hout Hi).
Qed.

End LoaderProperties.

Lemma council_record_repair_irrelevant
      (json_loads : value -> result value)
      (repair1 repair2 : option (value -> result value)) (row : Series) (v : value) :
  json_loads (Series_get row "completion_text" (VStr "")) = Ok v ->
  council_record json_loads repair1 row = council_record json_loads repair2 row.
Proof.
  intros Hstrict. unfold council_record.
  rewrite (safe_json_load_strict json_loads repair1 _ v Hstrict).
  rewrite (safe_json_load_strict json_loads repair2 _ v Hstrict).
  reflexivity.
Qed.

(** X10: the repair capability matters for broken text only.  On a batch
    in which strict parsing accepts every row's text, [parse_council_df]
    gives the same result with any repair capability as with any other,
    or with none. *)
Theorem repair_irrelevant_on_strict_batches
        (json_loads : value -> result value)
        (repair1 repair2 : option (value -> result value)) (rows : list Series) :
  Forall (fun row =>
            exists v, json_loads (Series_get row "completion_text" (VStr "")) = Ok v)
         rows ->
  parse_council_df json_loads repair1 rows = parse_council_df json_loads repair2 rows.
Proof.
  induction 1 as [| row rest [v Hrow] _ IH].
  - reflexivity.
  - rewrite !parse_council_df_cons, IH.
    now rewrite (council_record_repair_irrelevant json_loads repair1 repair2 row v Hrow).
Qed.

(** ** Further properties of the prompt *)

Lemma append_inv_head (a b c : string) : (a ++ b = a ++ c -> b = c)%string.
Proof.
  induction a as [| x a IH]; simpl; [trivial |].
  intros [= H]. now apply IH.
Qed.

Lemma append_inv_tail (a b c : string) : (a ++ c = b ++ c -> a = b)%string.
Proof.
  revert b. induction a as [| x a IH]; intros [| y b]; simpl.
  - reflexivity.
  - intros H. apply (f_equal String.length) in H. simpl in H.
    rewrite length_append in H. lia.
  - intros H. apply (f_equal String.length) in H. simpl in H.
    rewrite length_append in H. lia.
  - intros [= -> H]. f_equal. now apply IH.
Qed.

Lemma append_assoc (a b c : string) : ((a ++ b) ++ c = a ++ (b ++ c))%string.
Proof. induction a as [| x a IH]; simpl; [reflexivity | now rewrite IH]. Qed.

(** X11: each argument can be read back when the other is known.  Two
    prompts built from the same system prompt are equal only if the game
    data are equal, and two prompts built around the same game data are
    equal only if the system prompts are equal. *)
Theorem build_agent_prompt_text_injective
        (system_prompt system_prompt' game_data_text game_data_text' : string) :
  (build_agent_prompt_text system_prompt game_data_text =
   build_agent_prompt_text system_prompt game_data_text' ->
   game_data_text = game_data_text') /\
  (build_agent_prompt_text system_prompt game_data_text =
   build_agent_prompt_text system_prompt' game_data_text ->
   system_prompt = system_prompt').
Proof.
  unfold build_agent_prompt_text. split; intros H.
  - do 3 apply append_inv_head in H.
    exact (append_inv_tail _ _ _ H).
  - exact (append_inv_tail _ _ _ H).
Qed.

(** X12: the two arguments together cannot be read back.  A system
    prompt that goes on with a blank line, the data header and a text
    [b] gives, with game data [c], the very prompt that the shorter
    system prompt gives with game data made of [b], a blank line, the
    header and [c]: the prompt does not tell where the system prompt
    ends. *)
Theorem build_agent_prompt_text_boundary_ambiguous (a b c : string) :
  build_agent_prompt_text (a ++ (nl ++ nl) ++ GAME_DATA_HEADER ++ b) c =
  build_agent_prompt_text a (b ++ (nl ++ nl) ++ GAME_DATA_HEADER ++ c) /\
  (a ++ (nl ++ nl) ++ GAME_DATA_HEADER ++ b)%string <> a.
Proof.
  split.
  - unfold build_agent_prompt_text. now rewrite !append_assoc.
  - intros H. apply (f_equal String.length) in H.
    rewrite !length_append in H. simpl in H. lia.
Qed.

(** ** Properties of the configured paths *)

(** X13: where the files are looked for.  For a [config.py] that lies
    in a package directory below some directory [root], whatever the
    names of the package directory and of the file, [BASE_DIR] is [root]
    and the two files are [root/context/game_data.toon] and
    [root/prompts/agent_system_prompt.txt]. *)
Theorem config_layout (root : Path) (package file_name : string) :
  config (root ++ [package; file_name]) =
  Ok {| BASE_DIR := root;
        CONTEXT_DIR := root ++ ["context"];
        PROMPT_DIR := root ++ ["prompts"];
        GAME_DATA_FILE := root ++ ["context"; "game_data.toon"];
        AGENT_SYSTEM_PROMPT_FILE := root ++ ["prompts"; "agent_system_prompt.txt"] |}.
Proof.
  unfold config, parents. rewrite length_app. simpl.
  replace (Nat.ltb 1 (length root + 2)) with true
    by (symmetry; apply Nat.ltb_lt; lia).
  replace (length root + 2 - 2) with (length root + 0) by lia.
  rewrite firstn_app_2. simpl. rewrite app_nil_r.
  unfold joinpath. rewrite <- !app_assoc. reflexivity.
Qed.

(** ** Instances of the further properties *)

Example loads_truncated : Json.loads (VStr truncated_text) = Raise JSONDecodeError.
Proof. vm_compute. reflexivity. Qed.

Example loads_named_scores :
  Json.loads (VStr named_scores_text) =
  Ok (VDict [("winner_team_id", VStr "Texas");
             ("projected_score", VDict [("Texas", VInt 27); ("Rice", VInt 24)]);
             ("note", VStr "x")]).
Proof. vm_compute. reflexivity. Qed.

Example loads_named_scores_reordered :
  Json.loads (VStr named_scores_reordered_text) =
  Ok (VDict [("projected_score", VDict [("Texas", VInt 27); ("Rice", VInt 24)]);
             ("winner_team_id", VStr "Texas")]).
Proof. vm_compute. reflexivity. Qed.

(** Scenario C in small: a truncated object, closed by the repair. *)
Lemma safe_json_load_repaired_witness :
  Json.loads (VStr truncated_text) = Raise JSONDecodeError /\
  safe_json_load Json.loads (Some close_brace) (VStr truncated_text) =
    Ok (VDict [("winner_team_id", VInt 1)]).
Proof.
  split; [exact loads_truncated |].
  apply (safe_json_load_repaired Json.loads (Some close_brace)
           (VStr truncated_text) (VStr (truncated_text ++ "}")) _
           close_brace JSONDecodeError).
  - exact loads_truncated.
  - reflexivity.
  - reflexivity.
  - vm_compute. reflexivity.
Defined.

Lemma safe_json_load_provenance_witness :
  Json.loads (VStr truncated_text) = Ok (VDict [("winner_team_id", VInt 1)]) \/
  (exists e repair repaired,
      Json.loads (VStr truncated_text) = Raise e /\
      Some close_brace = Some repair /\
      repair (VStr truncated_text) = Ok repaired /\
      Json.loads repaired = Ok (VDict [("winner_team_id", VInt 1)])) \/
  (VDict [("winner_team_id", VInt 1)] = VNone /\
   exists e, Json.loads (VStr truncated_text) = Raise e).
Proof.
  apply (safe_json_load_provenance Json.loads (Some close_brace)).
  vm_compute. reflexivity.
Defined.

Lemma record_schema_witness :
  exists data,
    safe_json_load Json.loads None
      (Series_get (row_of "model-b" scenario_B_text) "completion_text" (VStr ""))
    = Ok data /\
    dict_lookup "valid_json"
      [("model", VStr "model-b"); ("raw", VStr scenario_B_text);
       ("valid_json", VBool false)] = Some (VBool (is_dict data)) /\
    map fst [("model", VStr "model-b"); ("raw", VStr scenario_B_text);
             ("valid_json", VBool false)]
    = (if is_dict data then full_columns else minimal_columns) /\
    dict_lookup "raw"
      [("model", VStr "model-b"); ("raw", VStr scenario_B_text);
       ("valid_json", VBool false)]
    = (if is_dict data then None
       else Some (Series_get (row_of "model-b" scenario_B_text)
                    "completion_text" (VStr ""))).
Proof.
  apply (record_schema Json.loads None (row_of "model-b" scenario_B_text)).
  vm_compute. reflexivity.
Defined.

(** Scores keyed by team names are not found under "1" and "2". *)
Lemma mapping_score_full_record_witness :
  exists record,
    council_record Json.loads None (row_of "model-a" named_scores_text) = Ok record /\
    dict_lookup "score_team_1" record = Some VNone /\
    dict_lookup "score_team_2" record = Some VNone.
Proof.
  apply (proj2 (mapping_score_full_record Json.loads None
                  (row_of "model-a" named_scores_text)
                  [("winner_team_id", VStr "Texas");
                   ("projected_score", VDict [("Texas", VInt 27); ("Rice", VInt 24)]);
                   ("note", VStr "x")]
                  [("Texas", VInt 27); ("Rice", VInt 24)]
                  ltac:(vm_compute; reflexivity) eq_refl));
    reflexivity.
Defined.

Lemma usable_scenario_A (repair_json : option (value -> result value)) :
  usable Json.loads repair_json (row_of "model-a" scenario_A_text).
Proof.
  intros d Hload.
  change (Series_get (row_of "model-a" scenario_A_text) "completion_text" (VStr ""))
    with (VStr scenario_A_text) in Hload.
  rewrite (safe_json_load_strict Json.loads repair_json _ _ loads_scenario_A) in Hload.
  injection Hload as <-. reflexivity.
Qed.

Lemma truthy_non_mapping_score_raises_witness :
  parse_council_df Json.loads None
    ([row_of "model-a" scenario_A_text]
       ++ row_of "model-b" score_as_number_text :: [row_of "model-c" scenario_B_text])
  = Raise AttributeError.
Proof.
  apply (truthy_non_mapping_score_raises Json.loads None
           (row_of "model-b" score_as_number_text)
           [("projected_score", VInt 5)] (VInt 5)).
  - vm_compute. reflexivity.
  - reflexivity.
  - reflexivity.
  - reflexivity.
  - constructor; [apply usable_scenario_A | constructor].
Defined.

Lemma unrecognized_keys_ignored_witness :
  council_record Json.loads None (row_of "model-a" named_scores_text) =
  council_record Json.loads None (row_of "model-a" named_scores_reordered_text).
Proof.
  apply (unrecognized_keys_ignored Json.loads None _ _
           [("winner_team_id", VStr "Texas");
            ("projected_score", VDict [("Texas", VInt 27); ("Rice", VInt 24)]);
            ("note", VStr "x")]
           [("projected_score", VDict [("Texas", VInt 27); ("Rice", VInt 24)]);
            ("winner_team_id", VStr "Texas")]).
  - reflexivity.
  - vm_compute. reflexivity.
  - vm_compute. reflexivity.
  - intros key Hin. simpl in Hin.
    repeat (destruct Hin as [<- | Hin]; [reflexivity |]). contradiction.
Defined.



Lemma returned_frame_follows_rows_witness :
  length [[("model", VStr "model-b"); ("raw", VStr scenario_B_text);
           ("valid_json", VBool false)];
          [("model", VStr "model-c"); ("raw", VStr bare_list_text);
           ("valid_json", VBool false)]] = 2 /\
  exists record,
    nth_error [[("model", VStr "model-b"); ("raw", VStr scenario_B_text);
                ("valid_json", VBool false)];
               [("model", VStr "model-c"); ("raw", VStr bare_list_text);
                ("valid_json", VBool false)]] 1 = Some record /\
    council_record Json.loads None (row_of "model-c" bare_list_text) = Ok record.
Proof.
  destruct (returned_frame_follows_rows Json.loads None
              [row_of "model-b" scenario_B_text; row_of "model-c" bare_list_text]
              [[("model", VStr "model-b"); ("raw", VStr scenario_B_text);
                ("valid_json", VBool false)];
               [("model", VStr "model-c"); ("raw", VStr bare_list_text);
                ("valid_json", VBool false)]])
    as [Hlen Hnth].
  - vm_compute. reflexivity.
  - split; [exact Hlen |].
    exact (Hnth 1 (row_of "model-c" bare_list_text) eq_refl).
Defined.

Lemma repair_irrelevant_on_strict_batches_witness :
  parse_council_df Json.loads None
    [row_of "model-a" scenario_A_text; row_of "model-c" bare_list_text] =
  parse_council_df Json.loads (Some close_brace)
    [row_of "model-a" scenario_A_text; row_of "model-c" bare_list_text].
Proof.
  apply (repair_irrelevant_on_strict_batches Json.loads None (Some close_brace)).
  constructor; [| constructor; [| constructor]].
  - eexists. exact loads_scenario_A.
  - eexists. exact loads_bare_list.
Defined.

Lemma build_agent_prompt_text_injective_witness :
  build_agent_prompt_text "SYS" "DATA" = build_agent_prompt_text "SYS" "DATA" /\
  "DATA" = "DATA" /\ "SYS" = "SYS".
Proof.
  split; [reflexivity | split].
  - exact (proj1 (build_agent_prompt_text_injective "SYS" "SYS" "DATA" "DATA") eq_refl).
  - exact (proj2 (build_agent_prompt_text_injective "SYS" "SYS" "DATA" "DATA") eq_refl).
Defined.

(** ** Tracing records back to rows *)

Lemma council_record_model (json_loads : value -> result value)
      (repair_json : option (value -> result value)) (row : Series) (record : pydict) :
  council_record json_loads repair_json row = Ok record ->
  dict_lookup "model" record = Some (Series_get row "model" VNone).
Proof.
  destruct (council_record_cases json_loads repair_json row)
    as [H | [(d & ps & _ & H) | (d & _ & H)]];
    rewrite H; intros [= <-]; reflexivity.
Qed.

(** X14: the [model] column of a returned frame is the [model] column of
    the batch, row for row ([None] where a row has none), so that every
    record, failed or not, can be traced to the model that produced
    it. *)
Theorem model_column_preserved
        (json_loads : value -> result value)
        (repair_json : option (value -> result value))
        (rows : list Series) (out : list pydict) :
  parse_council_df json_loads repair_json rows = Ok out ->
  map (dict_lookup "model") out =
  map (fun row => Some (Series_get row "model" VNone)) rows.
Proof.
  intros Hout. apply parse_council_df_Ok in Hout.
  induction Hout as [| row record rest out' Hrow _ IH]; simpl.
  - reflexivity.
  - rewrite IH. f_equal.
    exact (council_record_model json_loads repair_json row record Hrow).
Qed.

Lemma model_column_preserved_witness :
  map (dict_lookup "model")
      [[("model", VStr "model-b"); ("raw", VStr scenario_B_text);
        ("valid_json", VBool false)];
       [("model", VNone); ("raw", VStr bare_list_text); ("valid_json", VBool false)]]
  = [Some (VStr "model-b"); Some VNone].
Proof.
  apply (model_column_preserved Json.loads None
           [row_of "model-b" scenario_B_text;
            [("completion_text", VStr bare_list_text)]]).
  vm_compute. reflexivity.
Defined.
